(** * google_client.py: a client of the Google Custom Search API

    A shallow embedding of [src/google_client.py]: the pydantic model
    [GoogleSearchQueryParameter] and the three methods of [GoogleClient]
    ([__init__], [search], [search_query_parameter]).

    Python values are an inductive type, dicts are [gmap]s with string keys,
    exceptions are the [Raise] case of a result type, and the methods run in
    a state-and-error monad over a world made of the process environment,
    the attribute dict of [self] and the log of the calls made to the
    googleapiclient library.  That library is not part of the repository:
    its two entry points are Variables of the Section that holds the
    methods. *)

From stdpp Require Import gmap strings list fin_maps.
From Stdlib Require Import ZArith.

Local Set Warnings "-register-all".
Local Open Scope Z_scope.

(** ** Python values *)

Inductive pyval : Type :=
  | PNone
  | PBool (b : bool)
  | PInt (n : Z)
  | PStr (s : string)
  | PList (l : list pyval)
  | PDict (d : gmap string pyval).

(** [v is None] is decidable without deciding equality of all values. *)
#[global] Instance pyval_is_None_dec (v : pyval) : Decision (v = PNone).
Proof. destruct v; first [by left | by right]. Defined.

(** Truth value of an object, as [not] and [if] test it: [None], [False],
    zero and the empty string, list and dict are false. *)
Definition truthy (v : pyval) : bool :=
  match v with
  | PNone => false
  | PBool b => b
  | PInt n => negb (n =? 0)
  | PStr s => match s with EmptyString => false | String _ _ => true end
  | PList l => match l with [] => false | _ :: _ => true end
  | PDict d => negb (Nat.eqb (size d) 0)
  end.

(** An [int | None] or [str | None] value as a Python value. *)
Definition of_int (v : option Z) : pyval :=
  match v with Some n => PInt n | None => PNone end.

Definition of_str (v : option string) : pyval :=
  match v with Some s => PStr s | None => PNone end.

(** ** Exceptions and results *)

Inductive exn : Type :=
  | ValidationError (loc : string) (type : string)
  | KeyError (key : string)
  | TypeError (msg : string)
  | AttributeError (name : string)
  | LibraryError (what : string).

Inductive result (A : Type) : Type :=
  | Return (a : A)
  | Raise (e : exn).
Arguments Return {A} a.
Arguments Raise {A} e.

#[global] Instance result_ret : MRet result := λ A a, Return a.
#[global] Instance result_bind : MBind result := λ A B f r,
  match r with
  | Return a => f a
  | Raise e => Raise e
  end.

(** ** Arguments with defaults

    A parameter declared [p = d] is either left out by the caller, and then
    bound to [d], or passed, and then bound to what was passed, [None]
    included. *)

Inductive arg (A : Type) : Type :=
  | Omitted
  | Passed (a : A).
Arguments Omitted {A}.
Arguments Passed {A} a.

Definition with_default {A : Type} (d : A) (x : arg A) : A :=
  match x with
  | Omitted => d
  | Passed a => a
  end.

(** ** Subscription and keyword calls *)

(** [obj[key]] for a string key: a dict without the key raises [KeyError],
    every other value of [pyval] raises [TypeError]. *)
Definition getitem (obj : pyval) (key : string) : result pyval :=
  match obj with
  | PDict d =>
      match d !! key with
      | Some v => Return v
      | None => Raise (KeyError key)
      end
  | _ => Raise (TypeError "indices must be integers or object is not subscriptable")
  end.

(** The keyword arguments of a call [f(k1=v1, ..., **kwargs)]: a key of
    [kwargs] that repeats one of the explicit keywords is a [TypeError],
    raised before [f] is entered. *)
Definition keyword_args (explicit : list (string * pyval))
    (kwargs : gmap string pyval) : result (gmap string pyval) :=
  if decide (Forall (λ kv, kwargs !! kv.1 = None) explicit)
  then Return (list_to_map explicit ∪ kwargs)
  else Raise (TypeError "got multiple values for keyword argument").

(** ** The pydantic model (lines 6-29) *)

Record GoogleSearchQueryParameter : Type := {
  num : option Z;
  start : option string;
  lr : option string;
  sort : option string;
  dateRestrict : option string;
  exactTerms : option string;
  excludeTerms : option string;
  safe : option string
}.

(** Validation of [num: int | None = Field(default=10, ge=1, le=100)]:
    [None] passes, an integer passes when it satisfies both bounds. *)
Definition validate_num (v : option Z) : result (option Z) :=
  match v with
  | None => Return None
  | Some n =>
      if negb (1 <=? n) then Raise (ValidationError "num" "greater_than_equal")
      else if negb (n <=? 100) then Raise (ValidationError "num" "less_than_equal")
      else Return (Some n)
  end.

(** [GoogleSearchQueryParameter(num=..., start=..., ...)]: a field that is
    left out takes its declared default, a field that is passed is
    validated; the string fields carry no constraint. *)
Definition GoogleSearchQueryParameter_new
    (num : arg (option Z)) (start lr sort dateRestrict exactTerms
     excludeTerms safe : arg (option string))
  : result GoogleSearchQueryParameter :=
  n ← match num with
      | Omitted => Return (Some 10)
      | Passed v => validate_num v
      end;
  mret {| num := n;
          start := with_default None start;
          lr := with_default (Some "lang_ja") lr;
          sort := with_default None sort;
          dateRestrict := with_default None dateRestrict;
          exactTerms := with_default None exactTerms;
          excludeTerms := with_default None excludeTerms;
          safe := with_default None safe |}.

(** [model_dump().items()]: the fields in declaration order. *)
Definition model_dump (p : GoogleSearchQueryParameter) : list (string * pyval) :=
  [ ("num", of_int (num p));
    ("start", of_str (start p));
    ("lr", of_str (lr p));
    ("sort", of_str (sort p));
    ("dateRestrict", of_str (dateRestrict p));
    ("exactTerms", of_str (exactTerms p));
    ("excludeTerms", of_str (excludeTerms p));
    ("safe", of_str (safe p)) ].

(** ** The world and the monad of the methods *)

(** What the client asks of the googleapiclient library. *)
Inductive io_event : Type :=
  | EvBuild (serviceName version : string) (developerKey : pyval)
  | EvExecute (params : gmap string pyval).

Record world : Type := {
  environ : gmap string string;      (* os.environ *)
  self_dict : gmap string pyval;     (* the attributes of self *)
  calls : list io_event              (* library calls, oldest first *)
}.

Definition M (A : Type) : Type := world → result A * world.

#[global] Instance M_ret : MRet M := λ A a w, (Return a, w).
#[global] Instance M_bind : MBind M := λ A B f m w,
  match m w with
  | (Return a, w') => f a w'
  | (Raise e, w') => (Raise e, w')
  end.

Definition lift {A : Type} (r : result A) : M A := λ w, (r, w).

(** [os.getenv(name)] *)
Definition getenv (name : string) : M pyval := λ w,
  (Return (of_str (environ w !! name)), w).

(** [self.name = v] *)
Definition setattr (name : string) (v : pyval) : M unit := λ w,
  (Return (), {| environ := environ w;
                 self_dict := <[name := v]> (self_dict w);
                 calls := calls w |}).

(** [self.name] *)
Definition getattr (name : string) : M pyval := λ w,
  match self_dict w !! name with
  | Some v => (Return v, w)
  | None => (Raise (AttributeError name), w)
  end.

Definition log (ev : io_event) (w : world) : world :=
  {| environ := environ w; self_dict := self_dict w; calls := calls w ++ [ev] |}.

(** ** GoogleClient (lines 32-88) *)

(** [__init__(self, api_key=None, cse_id=None)], lines 33-47. *)
Definition __init__ (api_key cse_id : arg pyval) : M unit :=
  let api_key := with_default PNone api_key in
  let cse_id := with_default PNone cse_id in
  api_key ← (if negb (truthy api_key)
             then getenv "CUSTOM_SEARCH_API_KEY" else mret api_key);
  cse_id ← (if negb (truthy cse_id)
            then getenv "SEARCH_ENGINE_ID" else mret cse_id);
  setattr "custom_search_api_key" api_key;;
  setattr "cse_id" cse_id.

(** [search_query_parameter(self, num=10, start=None, lr="lang_ja", ...)],
    lines 62-88: every parameter is handed to the model by keyword, and the
    dict comprehension keeps the dumped items whose value is not [None]. *)
Definition search_query_parameter
    (num : arg (option Z)) (start lr sort dateRestrict exactTerms
     excludeTerms safe : arg (option string))
  : M (gmap string pyval) :=
  query_parameter ← lift (GoogleSearchQueryParameter_new
    (Passed (with_default (Some 10) num))
    (Passed (with_default None start))
    (Passed (with_default (Some "lang_ja") lr))
    (Passed (with_default None sort))
    (Passed (with_default None dateRestrict))
    (Passed (with_default None exactTerms))
    (Passed (with_default None excludeTerms))
    (Passed (with_default None safe)));
  mret (list_to_map (filter (λ kv, kv.2 ≠ PNone) (model_dump query_parameter))).

(** The values the parameters of [search_query_parameter] are bound to at a
    call, by name. *)
Definition bound_parameters
    (num : arg (option Z)) (start lr sort dateRestrict exactTerms
     excludeTerms safe : arg (option string))
  : list (string * pyval) :=
  [ ("num", of_int (with_default (Some 10) num));
    ("start", of_str (with_default None start));
    ("lr", of_str (with_default (Some "lang_ja") lr));
    ("sort", of_str (with_default None sort));
    ("dateRestrict", of_str (with_default None dateRestrict));
    ("exactTerms", of_str (with_default None exactTerms));
    ("excludeTerms", of_str (with_default None excludeTerms));
    ("safe", of_str (with_default None safe)) ].

(** ** Stub transports and sample data for the examples *)

Definition empty_world : world :=
  {| environ := ∅; self_dict := ∅; calls := [] |}.

Definition env_world : world :=
  {| environ := {[ "CUSTOM_SEARCH_API_KEY" := "EK"; "SEARCH_ENGINE_ID" := "EC" ]};
     self_dict := ∅; calls := [] |}.

(** A client built from the explicit credentials ["K"] and ["C"]. *)
Definition sample_client : world :=
  {| environ := ∅;
     self_dict := {[ "cse_id" := PStr "C"; "custom_search_api_key" := PStr "K" ]};
     calls := [] |}.

Definition sample_record : pyval :=
  PDict {[ "title" := PStr "T"; "link" := PStr "L"; "snippet" := PStr "S" ]}.

Definition sample_payload : gmap string pyval :=
  {[ "items" := PList [sample_record] ]}.

Definition error_payload : gmap string pyval :=
  {[ "kind" := PStr "customsearch#search" ]}.

Definition stub_build (serviceName version : string) (developerKey : pyval)
  : result unit := Return ().

Definition stub_execute (payload : pyval) (svc : unit)
    (params : gmap string pyval) : result pyval := Return payload.

(** A library that refuses to build a service without a developer key. *)
Definition strict_build (serviceName version : string) (developerKey : pyval)
  : result unit :=
  if truthy developerKey then Return ()
  else Raise (LibraryError "no developerKey").

Section client.
Context {service : Type}.

(** [googleapiclient.discovery.build(serviceName, version, developerKey=...)] *)
Variable build : string → string → pyval → result service.

(** [service.cse().list(q=..., cx=..., **kwargs).execute()], the keyword
    arguments already merged into [params] *)
Variable execute : service → gmap string pyval → result pyval.

Definition call_build (serviceName version : string) (developerKey : pyval)
  : M service := λ w,
  (build serviceName version developerKey,
   log (EvBuild serviceName version developerKey) w).

Definition call_execute (svc : service) (params : gmap string pyval)
  : M pyval := λ w,
  (execute svc params, log (EvExecute params) w).

(** [search(self, query, **kwargs)], lines 49-60. *)
Definition search (query : string) (kwargs : gmap string pyval) : M pyval :=
  developerKey ← getattr "custom_search_api_key";
  svc ← call_build "customsearch" "v1" developerKey;
  cx ← getattr "cse_id";
  params ← lift (keyword_args [("q", PStr query); ("cx", cx)] kwargs);
  res ← call_execute svc params;
  lift (getitem res "items").

End client.

(** ** The script (lines 91-111)

    The block under [if __name__ == "__main__"] builds a client from the
    environment, searches one fixed query, prints three fields of every
    result and then dumps the results.  It runs in a process: the world of
    the client and the lines written to standard output. *)

Record process : Type := {
  client : world;
  stdout : list string     (* one entry per [print], oldest first *)
}.

Definition IO (A : Type) : Type := process → result A * process.

#[global] Instance IO_ret : MRet IO := λ A a p, (Return a, p).
#[global] Instance IO_bind : MBind IO := λ A B f m p,
  match m p with
  | (Return a, p') => f a p'
  | (Raise e, p') => (Raise e, p')
  end.

(** A method of the client, run inside the process. *)
Definition run {A : Type} (m : M A) : IO A := λ p,
  let '(r, w) := m (client p) in (r, {| client := w; stdout := stdout p |}).

Definition liftIO {A : Type} (r : result A) : IO A := λ p, (r, p).

(** [print(line)] *)
Definition print (line : string) : IO unit := λ p,
  (Return (), {| client := client p; stdout := stdout p ++ [line] |}).

(** [GoogleClient(...)] starts from an object without attributes. *)
Definition new_object : M unit := λ w,
  (Return (), {| environ := environ w; self_dict := ∅; calls := calls w |}).

(** The items a [for] loop draws from a value: the elements of a list, the
    keys of a dict, the one-character strings of a string; the other values
    are not iterable.  The keys come in the order of [map_to_list], which
    is not the insertion order of Python. *)
Definition iter (v : pyval) : result (list pyval) :=
  match v with
  | PList l => Return l
  | PDict d => Return (PStr <$> (map_to_list d).*1)
  | PStr s => Return ((λ c, PStr (String c EmptyString)) <$> String.list_ascii_of_string s)
  | _ => Raise (TypeError "object is not iterable")
  end.

(** [for item in items: body(item)] *)
Fixpoint for_each (items : list pyval) (body : pyval → IO unit) : IO unit :=
  match items with
  | [] => mret ()
  | item :: rest => body item;; for_each rest body
  end.

#[global] Instance pyval_inhabited : Inhabited pyval := populate PNone.

Section script.
Context {service : Type}.
Variable build : string → string → pyval → result service.
Variable execute : service → gmap string pyval → result pyval.

(** [format(v, "")], what an f-string puts in place of [{v}]. *)
Variable format : pyval → string.

(** [pprint.pformat(v)] *)
Variable pformat : pyval → string.

(** The body of the loop, lines 105-108. *)
Definition print_item (item : pyval) : IO unit :=
  title ← liftIO (getitem item "title");
  print ("Title: " +:+ format title);;
  link ← liftIO (getitem item "link");
  print ("Link: " +:+ format link);;
  snippet ← liftIO (getitem item "snippet");
  print ("Snippet: " +:+ format snippet);;
  print "---".

Definition main : IO unit :=
  let query := "Python programming" in
  run new_object;;
  run (__init__ Omitted Omitted);;
  results ← run (search build execute query ∅);
  items ← liftIO (iter results);
  for_each items print_item;;
  print (pformat results).

(** The four lines the loop prints for a record that has the three keys. *)
Definition record_lines (r : gmap string pyval) : list string :=
  [ "Title: " +:+ format (r !!! "title");
    "Link: " +:+ format (r !!! "link");
    "Snippet: " +:+ format (r !!! "snippet");
    "---" ].

End script.

(** The client of the script: a fresh object whose two attributes come from
    the environment of the process. *)
Definition script_client (p : process) : world :=
  {| environ := environ (client p);
     self_dict :=
       <["cse_id" := of_str (environ (client p) !! "SEARCH_ENGINE_ID")]>
       (<["custom_search_api_key" :=
            of_str (environ (client p) !! "CUSTOM_SEARCH_API_KEY")]> ∅);
     calls := calls (client p) |}.

(** Formatting for the examples: a string is put as it is. *)
Definition sample_format (v : pyval) : string :=
  match v with
  | PStr s => s
  | _ => "<object>"
  end.

Definition sample_pformat (v : pyval) : string := "<dump>".

Definition env_process : process :=
  {| client := env_world; stdout := [] |}.

(** More stubs and sample data. *)

(** A library whose list request is refused. *)
Definition refusing_execute (svc : unit) (params : gmap string pyval)
  : result pyval := Raise (LibraryError "quota exceeded").

(** A client built with no credentials anywhere. *)
Definition anonymous_client : world :=
  {| environ := ∅;
     self_dict := {[ "cse_id" := PNone; "custom_search_api_key" := PNone ]};
     calls := [] |}.


(** The model instance with every field at its default. *)
Definition default_model : GoogleSearchQueryParameter :=
  {| num := Some 10; start := None; lr := Some "lang_ja"; sort := None;
     dateRestrict := None; exactTerms := None; excludeTerms := None;
     safe := None |}.

(** ** Basic facts *)

Lemma validate_num_in_range (n : Z) :
  1 ≤ n ≤ 100 → validate_num (Some n) = Return (Some n).
Proof.
  intros [Hge Hle]. unfold validate_num.
  apply Z.leb_le in Hge, Hle. by rewrite Hge, Hle.
Qed.

Lemma validate_num_out_of_range (n : Z) :
  n < 1 ∨ 100 < n →
  validate_num (Some n) =
    Raise (ValidationError "num"
             (if n <? 1 then "greater_than_equal" else "less_than_equal")).
Proof.
  intros Hout. unfold validate_num.
  destruct (Z.leb_spec 1 n) as [Hge|Hlt]; simpl.
  - destruct (Z.leb_spec n 100); simpl; [lia|].
    by destruct (Z.ltb_spec n 1); [lia|].
  - by destruct (Z.ltb_spec n 1); [|lia].
Qed.

(** Validation never changes the value it accepts. *)
Lemma validate_num_Return (v r : option Z) :
  validate_num v = Return r → r = v.
Proof.
  destruct v as [n|]; simpl; [|congruence].
  destruct (negb (1 <=? n)); [done|].
  destruct (negb (n <=? 100)); [done|]. congruence.
Qed.

(** The method is the validation of [num] followed by the filter over the
    bound parameters, in an unchanged world. *)
Lemma search_query_parameter_unfold num start lr sort dateRestrict
    exactTerms excludeTerms safe (w : world) :
  search_query_parameter num start lr sort dateRestrict exactTerms
      excludeTerms safe w =
    match validate_num (with_default (Some 10) num) with
    | Return _ =>
        (Return (list_to_map (filter (λ kv, kv.2 ≠ PNone)
           (bound_parameters num start lr sort dateRestrict exactTerms
              excludeTerms safe))), w)
    | Raise e => (Raise e, w)
    end.
Proof.
  unfold search_query_parameter, GoogleSearchQueryParameter_new, lift,
    mbind, M_bind; simpl.
  destruct (validate_num _) as [r|e] eqn:Hv; simpl; [|done].
  apply validate_num_Return in Hv as ->. done.
Qed.

Lemma bound_parameters_NoDup num start lr sort dateRestrict exactTerms
    excludeTerms safe :
  NoDup (bound_parameters num start lr sort dateRestrict exactTerms
           excludeTerms safe).*1.
Proof. simpl. apply (bool_decide_unpack _). by vm_compute. Qed.

(** Lookup in a dict comprehension over items with distinct keys. *)
Lemma lookup_comprehension (P : string * pyval → Prop)
    `{!∀ kv, Decision (P kv)} (items : list (string * pyval)) k v :
  NoDup items.*1 →
  (list_to_map (filter P items) : gmap string pyval) !! k = Some v
  ↔ (k, v) ∈ items ∧ P (k, v).
Proof.
  intros Hnd. rewrite <-elem_of_list_to_map.
  - rewrite list_elem_of_filter. tauto.
  - eapply sublist_NoDup; [exact Hnd|].
    apply fmap_sublist, sublist_filter.
Qed.

(** ** The parameter validator *)

(** C1: for every integer [n] with [1 <= n <= 100], whatever the other
    arguments are, [search_query_parameter] returns a mapping, and that
    mapping binds the key [num] to [n] itself. *)
Theorem num_in_range_is_kept (n : Z)
    (start lr sort dateRestrict exactTerms excludeTerms safe
      : arg (option string)) (w : world) :
  1 ≤ n ≤ 100 →
  ∃ m : gmap string pyval,
    search_query_parameter (Passed (Some n)) start lr sort dateRestrict
      exactTerms excludeTerms safe w = (Return m, w)
    ∧ m !! "num" = Some (PInt n).
Proof.
  intros Hn. rewrite search_query_parameter_unfold. unfold with_default.
  rewrite (validate_num_in_range n Hn).
  eexists; split; [reflexivity|].
  apply lookup_comprehension; [apply bound_parameters_NoDup|].
  split; [|done]. apply list_elem_of_here.
Qed.

(** C2: for every integer [n] below 1 or above 100, whatever the other
    arguments are, [search_query_parameter] raises a [ValidationError] on
    the field [num] and returns no mapping. *)
Theorem num_out_of_range_is_rejected (n : Z)
    (start lr sort dateRestrict exactTerms excludeTerms safe
      : arg (option string)) (w : world) :
  n < 1 ∨ 100 < n →
  ∃ type : string,
    search_query_parameter (Passed (Some n)) start lr sort dateRestrict
      exactTerms excludeTerms safe w
    = (Raise (ValidationError "num" type), w).
Proof.
  intros Hn. rewrite search_query_parameter_unfold. unfold with_default.
  rewrite (validate_num_out_of_range n Hn). by eexists.
Qed.

(** C3: when [search_query_parameter] returns a mapping [m], the bindings
    of [m] are exactly the bound parameters whose value is not [None], so
    no key of [m] is bound to [None]; the call with every argument left
    out returns [{num: 10, lr: "lang_ja"}], and the call with only
    [exactTerms="foo"] returns
    [{num: 10, lr: "lang_ja", exactTerms: "foo"}]. *)
Theorem only_non_null_fields_are_kept (num : arg (option Z))
    (start lr sort dateRestrict exactTerms excludeTerms safe
      : arg (option string)) (w w' : world) (m : gmap string pyval) :
  search_query_parameter num start lr sort dateRestrict exactTerms
    excludeTerms safe w = (Return m, w') →
  (∀ k v, m !! k = Some v ↔
     (k, v) ∈ bound_parameters num start lr sort dateRestrict exactTerms
                excludeTerms safe ∧ v ≠ PNone)
  ∧ (∀ k, m !! k ≠ Some PNone)
  ∧ search_query_parameter Omitted Omitted Omitted Omitted Omitted
      Omitted Omitted Omitted w
    = (Return {[ "num" := PInt 10; "lr" := PStr "lang_ja" ]}, w)
  ∧ search_query_parameter Omitted Omitted Omitted Omitted Omitted
      (Passed (Some "foo")) Omitted Omitted w
    = (Return {[ "num" := PInt 10; "lr" := PStr "lang_ja";
                 "exactTerms" := PStr "foo" ]}, w).
Proof.
  intros Hm. rewrite search_query_parameter_unfold in Hm.
  destruct (validate_num _); [|done]. injection Hm as <- _.
  assert (Hlookup : ∀ k v,
    (list_to_map (filter (λ kv, kv.2 ≠ PNone)
       (bound_parameters num start lr sort dateRestrict exactTerms
          excludeTerms safe)) : gmap string pyval) !! k = Some v ↔
    (k, v) ∈ bound_parameters num start lr sort dateRestrict exactTerms
               excludeTerms safe ∧ v ≠ PNone).
  { intros k v. apply lookup_comprehension, bound_parameters_NoDup. }
  split; [exact Hlookup|]. split.
  - intros k Hk. apply Hlookup in Hk as [_ Hk]. by apply Hk.
  - split; rewrite search_query_parameter_unfold; simpl; f_equal.
Qed.

(** C8: [search_query_parameter] leaves the world as it found it (the
    attributes of [self], the environment and the log of library calls),
    and its result is the same in every world: it depends on the arguments
    alone. *)
Theorem search_query_parameter_is_pure (num : arg (option Z))
    (start lr sort dateRestrict exactTerms excludeTerms safe
      : arg (option string)) (w1 w2 : world) :
  (search_query_parameter num start lr sort dateRestrict exactTerms
     excludeTerms safe w1).2 = w1
  ∧ (search_query_parameter num start lr sort dateRestrict exactTerms
       excludeTerms safe w1).1
    = (search_query_parameter num start lr sort dateRestrict exactTerms
         excludeTerms safe w2).1.
Proof.
  rewrite !search_query_parameter_unfold.
  by destruct (validate_num _).
Qed.

(** C10: [num=None] passes validation, whatever the other arguments are:
    [search_query_parameter] returns a mapping, and that mapping has no
    key [num] (the default 10 is not put in its place). *)
Theorem num_None_is_accepted
    (start lr sort dateRestrict exactTerms excludeTerms safe
      : arg (option string)) (w : world) :
  ∃ m : gmap string pyval,
    search_query_parameter (Passed None) start lr sort dateRestrict
      exactTerms excludeTerms safe w = (Return m, w)
    ∧ m !! "num" = None.
Proof.
  rewrite search_query_parameter_unfold. simpl.
  eexists; split; [reflexivity|].
  apply eq_None_not_Some. intros [v Hv].
  apply lookup_comprehension in Hv as [Hin Hv];
    [|apply (bound_parameters_NoDup (Passed None))].
  unfold bound_parameters in Hin. simpl in Hv.
  rewrite !elem_of_cons, elem_of_nil in Hin. cbn in Hin.
  intuition congruence.
Qed.

(** ** Construction *)

(** [__init__] always returns; it writes the two attributes, each one the
    argument when it is truthy and the environment's value otherwise. *)
Lemma init_run (api_key cse_id : arg pyval) (w : world) :
  __init__ api_key cse_id w =
    (Return (),
     {| environ := environ w;
        self_dict :=
          <["cse_id" :=
              if truthy (with_default PNone cse_id)
              then with_default PNone cse_id
              else of_str (environ w !! "SEARCH_ENGINE_ID")]>
          (<["custom_search_api_key" :=
               if truthy (with_default PNone api_key)
               then with_default PNone api_key
               else of_str (environ w !! "CUSTOM_SEARCH_API_KEY")]>
           (self_dict w));
        calls := calls w |}).
Proof.
  unfold __init__.
  by destruct (truthy (with_default PNone api_key)),
    (truthy (with_default PNone cse_id)).
Qed.

(** C9: a credential argument that is passed but falsy, the empty string
    for one, is not stored: the attribute takes the value of the
    environment variable, [CUSTOM_SEARCH_API_KEY] for the key and
    [SEARCH_ENGINE_ID] for the engine id, as it does for an argument that
    is left out. *)
Theorem falsy_credential_falls_back (v : pyval) (w : world) :
  truthy v = false →
  (∀ cse_id : arg pyval,
     self_dict (__init__ (Passed v) cse_id w).2 !! "custom_search_api_key"
     = Some (of_str (environ w !! "CUSTOM_SEARCH_API_KEY"))
     ∧ (__init__ (Passed v) cse_id w).2 = (__init__ Omitted cse_id w).2)
  ∧ (∀ api_key : arg pyval,
       self_dict (__init__ api_key (Passed v) w).2 !! "cse_id"
       = Some (of_str (environ w !! "SEARCH_ENGINE_ID"))
       ∧ (__init__ api_key (Passed v) w).2 = (__init__ api_key Omitted w).2).
Proof.
  intros Hv. split; intros other; rewrite !init_run; simpl; rewrite Hv.
  - split; [|done]. by rewrite lookup_insert_ne, lookup_insert_eq.
  - split; [|done]. by rewrite lookup_insert_eq.
Qed.

(** ** Keyword calls *)

(** A keyword call that goes through binds every explicit keyword. *)
Lemma keyword_args_lookup (explicit : list (string * pyval))
    (kwargs params : gmap string pyval) (k : string) (v : pyval) :
  NoDup explicit.*1 →
  keyword_args explicit kwargs = Return params →
  (k, v) ∈ explicit → params !! k = Some v.
Proof.
  unfold keyword_args. intros Hnd Hret Hin. case_decide; [|done].
  injection Hret as <-. apply lookup_union_Some_l.
  by apply elem_of_list_to_map_1.
Qed.

(** It goes through when [kwargs] has neither [q] nor [cx], and then the
    other keys are those of [kwargs]. *)
Lemma keyword_args_q_cx (query : string) (cx : pyval)
    (kwargs : gmap string pyval) :
  kwargs !! "q" = None → kwargs !! "cx" = None →
  keyword_args [("q", PStr query); ("cx", cx)] kwargs
  = Return (<["q" := PStr query]> (<["cx" := cx]> kwargs)).
Proof.
  intros Hq Hcx. unfold keyword_args.
  rewrite decide_True by (by repeat constructor).
  simpl. by rewrite <-!insert_union_l, (left_id_L ∅ (∪)).
Qed.

(** ** Search *)

Section search_properties.
Context {service : Type}.
Variable build : string → string → pyval → result service.
Variable execute : service → gmap string pyval → result pyval.

(** On a client that has both attributes, [search] asks the library for a
    service with the stored key, then for the list with the query, the
    stored engine id and the keyword arguments, and subscripts the answer;
    the log grows by the calls that were made. *)
Lemma search_run (query : string) (kwargs : gmap string pyval) (w : world)
    (key cx : pyval) :
  self_dict w !! "custom_search_api_key" = Some key →
  self_dict w !! "cse_id" = Some cx →
  search build execute query kwargs w =
    (svc ← build "customsearch" "v1" key;
     params ← keyword_args [("q", PStr query); ("cx", cx)] kwargs;
     res ← execute svc params;
     getitem res "items",
     {| environ := environ w;
        self_dict := self_dict w;
        calls := calls w ++ EvBuild "customsearch" "v1" key ::
          match build "customsearch" "v1" key,
                keyword_args [("q", PStr query); ("cx", cx)] kwargs with
          | Return _, Return params => [EvExecute params]
          | _, _ => []
          end |}).
Proof.
  intros Hkey Hcx.
  unfold search, getattr, call_build, call_execute, lift, log,
    mbind, M_bind, result_bind; simpl.
  rewrite Hkey. destruct (build _ _ _) as [svc|e]; simpl; [|done].
  rewrite Hcx. destruct (keyword_args _ _) as [params|e]; simpl; [|done].
  rewrite <-app_assoc. by destruct (execute _ _).
Qed.

(** C4: when the library answers the request of [search] with a dict that
    has no key [items], [search] raises [KeyError] on that key; it returns
    nothing, and in particular not the empty list. *)
Theorem missing_items_raises_KeyError (query : string)
    (kwargs params d : gmap string pyval) (w : world) (key cx : pyval)
    (svc : service) :
  self_dict w !! "custom_search_api_key" = Some key →
  self_dict w !! "cse_id" = Some cx →
  build "customsearch" "v1" key = Return svc →
  keyword_args [("q", PStr query); ("cx", cx)] kwargs = Return params →
  execute svc params = Return (PDict d) →
  d !! "items" = None →
  (search build execute query kwargs w).1 = Raise (KeyError "items")
  ∧ (search build execute query kwargs w).1 ≠ Return (PList []).
Proof.
  intros Hkey Hcx Hbuild Hargs Hexec Hitems.
  rewrite (search_run query kwargs w key cx Hkey Hcx). simpl.
  rewrite Hbuild. simpl. rewrite Hargs. simpl. rewrite Hexec. simpl.
  by rewrite Hitems.
Qed.

(** C7: when the library answers the request of [search] with a dict that
    binds [items] to a value, [search] returns that very value. *)
Theorem search_returns_items (query : string)
    (kwargs params d : gmap string pyval) (w : world) (key cx items : pyval)
    (svc : service) :
  self_dict w !! "custom_search_api_key" = Some key →
  self_dict w !! "cse_id" = Some cx →
  build "customsearch" "v1" key = Return svc →
  keyword_args [("q", PStr query); ("cx", cx)] kwargs = Return params →
  execute svc params = Return (PDict d) →
  d !! "items" = Some items →
  (search build execute query kwargs w).1 = Return items.
Proof.
  intros Hkey Hcx Hbuild Hargs Hexec Hitems.
  rewrite (search_run query kwargs w key cx Hkey Hcx). simpl.
  rewrite Hbuild. simpl. rewrite Hargs. simpl. rewrite Hexec. simpl.
  by rewrite Hitems.
Qed.

(** C5: constructed with two explicit non-empty strings [k] and [c], in
    any environment, the client stores exactly [k] and [c]; a later
    [search], in whatever environment, builds the service with the key [k]
    and, when the list request is made, sends [c] as [cx] next to the
    query.  Each credential is resolved on its own, whatever the other
    argument is: an explicit [k] is stored as the key and an explicit [c]
    as the engine id; a key that is left out (or [None]) takes the value of
    [CUSTOM_SEARCH_API_KEY], and an engine id that is left out (or [None])
    takes the value of [SEARCH_ENGINE_ID]. *)
Theorem explicit_credentials_take_precedence (k c : string) (w : world) :
  k ≠ "" → c ≠ "" →
  (∃ w', __init__ (Passed (PStr k)) (Passed (PStr c)) w = (Return (), w')
     ∧ self_dict w' !! "custom_search_api_key" = Some (PStr k)
     ∧ self_dict w' !! "cse_id" = Some (PStr c)
     ∧ ∀ (w2 : world) (query : string) (kwargs : gmap string pyval),
         self_dict w2 = self_dict w' →
         calls (search build execute query kwargs w2).2 =
           calls w2 ++ EvBuild "customsearch" "v1" (PStr k) ::
             match build "customsearch" "v1" (PStr k),
                   keyword_args [("q", PStr query); ("cx", PStr c)] kwargs
             with
             | Return _, Return params => [EvExecute params]
             | _, _ => []
             end
         ∧ ∀ params,
             keyword_args [("q", PStr query); ("cx", PStr c)] kwargs
               = Return params →
             params !! "cx" = Some (PStr c)
             ∧ params !! "q" = Some (PStr query))
  ∧ (∀ cse_id : arg pyval,
       ∃ w', __init__ (Passed (PStr k)) cse_id w = (Return (), w')
         ∧ self_dict w' !! "custom_search_api_key" = Some (PStr k))
  ∧ (∀ api_key : arg pyval,
       ∃ w', __init__ api_key (Passed (PStr c)) w = (Return (), w')
         ∧ self_dict w' !! "cse_id" = Some (PStr c))
  ∧ (∀ cse_id : arg pyval,
       ∃ w', __init__ Omitted cse_id w = (Return (), w')
         ∧ __init__ (Passed PNone) cse_id w = (Return (), w')
         ∧ self_dict w' !! "custom_search_api_key"
           = Some (of_str (environ w !! "CUSTOM_SEARCH_API_KEY")))
  ∧ (∀ api_key : arg pyval,
       ∃ w', __init__ api_key Omitted w = (Return (), w')
         ∧ __init__ api_key (Passed PNone) w = (Return (), w')
         ∧ self_dict w' !! "cse_id"
           = Some (of_str (environ w !! "SEARCH_ENGINE_ID"))).
Proof.
  intros Hk Hc.
  assert (Htk : truthy (PStr k) = true) by (by destruct k).
  assert (Htc : truthy (PStr c) = true) by (by destruct c).
  split; [|split; [|split; [|split]]].
  - eexists. split; [apply init_run|]. simpl.
    destruct k as [|a k]; [done|]. destruct c as [|b c]; [done|]. simpl.
    split; [by rewrite lookup_insert_ne, lookup_insert_eq|].
    split; [by rewrite lookup_insert_eq|].
    intros w2 query kwargs Hself. split.
    + erewrite search_run; [reflexivity| |]; rewrite Hself.
      * by rewrite lookup_insert_ne, lookup_insert_eq.
      * by rewrite lookup_insert_eq.
    + intros params Hargs.
      split; eapply keyword_args_lookup; try exact Hargs;
        try (apply (bool_decide_unpack _); by vm_compute).
      * apply list_elem_of_further, list_elem_of_here.
      * apply list_elem_of_here.
  - intros cse_id. eexists. split; [apply init_run|].
    cbn [self_dict with_default]. rewrite Htk.
    by rewrite lookup_insert_ne, lookup_insert_eq.
  - intros api_key. eexists. split; [apply init_run|].
    cbn [self_dict with_default]. rewrite Htc.
    by rewrite lookup_insert_eq.
  - intros cse_id. eexists. rewrite !init_run.
    split; [reflexivity|]. split; [reflexivity|]. simpl.
    by rewrite lookup_insert_ne, lookup_insert_eq.
  - intros api_key. eexists. rewrite !init_run.
    split; [reflexivity|]. split; [reflexivity|]. simpl.
    by rewrite lookup_insert_eq.
Qed.

(** C6: [__init__] returns for every pair of arguments in every world,
    without a call to the library; it leaves both attributes set, to
    [None] when neither the argument nor the environment gives a value.
    A [search] on the new client hands these attributes to the library as
    they are: it raises what the library raises for them and makes no
    check of its own. *)
Theorem construction_never_fails (api_key cse_id : arg pyval) (w : world) :
  ∃ (w' : world) (key cx : pyval),
    __init__ api_key cse_id w = (Return (), w')
    ∧ environ w' = environ w
    ∧ calls w' = calls w
    ∧ self_dict w' !! "custom_search_api_key" = Some key
    ∧ self_dict w' !! "cse_id" = Some cx
    ∧ key = (if truthy (with_default PNone api_key)
             then with_default PNone api_key
             else of_str (environ w !! "CUSTOM_SEARCH_API_KEY"))
    ∧ cx = (if truthy (with_default PNone cse_id)
            then with_default PNone cse_id
            else of_str (environ w !! "SEARCH_ENGINE_ID"))
    ∧ ∀ (query : string) (kwargs : gmap string pyval),
        (search build execute query kwargs w').1 =
          (svc ← build "customsearch" "v1" key;
           params ← keyword_args [("q", PStr query); ("cx", cx)] kwargs;
           res ← execute svc params;
           getitem res "items").
Proof.
  eexists _, _, _. split; [apply init_run|]. simpl.
  split; [done|]. split; [done|].
  split; [by rewrite lookup_insert_ne, lookup_insert_eq|].
  split; [by rewrite lookup_insert_eq|].
  split; [done|]. split; [done|].
  intros query kwargs. erewrite search_run; [reflexivity| |]; simpl.
  - by rewrite lookup_insert_ne, lookup_insert_eq.
  - by rewrite lookup_insert_eq.
Qed.

End search_properties.

(** ** The theorems at concrete inputs *)

(** C1 at [num=50]. *)
Lemma num_in_range_is_kept_witness :
  1 ≤ 50 ≤ 100
  ∧ ∃ m : gmap string pyval,
      search_query_parameter (Passed (Some 50)) Omitted Omitted Omitted
        Omitted Omitted Omitted Omitted empty_world = (Return m, empty_world)
      ∧ m !! "num" = Some (PInt 50).
Proof.
  assert (H : 1 ≤ 50 ≤ 100) by (split; discriminate).
  split; [exact H|].
  exact (num_in_range_is_kept 50 Omitted Omitted Omitted Omitted Omitted
           Omitted Omitted empty_world H).
Defined.

(** C2 at [num=0]. *)
Lemma num_out_of_range_is_rejected_witness :
  (0 < 1 ∨ 100 < 0)
  ∧ ∃ type : string,
      search_query_parameter (Passed (Some 0)) Omitted Omitted Omitted
        Omitted Omitted Omitted Omitted empty_world
      = (Raise (ValidationError "num" type), empty_world).
Proof.
  assert (H : 0 < 1 ∨ 100 < 0) by (left; reflexivity).
  split; [exact H|].
  exact (num_out_of_range_is_rejected 0 Omitted Omitted Omitted Omitted
           Omitted Omitted Omitted empty_world H).
Defined.

(** C3 at the call with every argument left out. *)
Lemma only_non_null_fields_are_kept_witness :
  search_query_parameter Omitted Omitted Omitted Omitted Omitted Omitted
    Omitted Omitted empty_world
  = (Return {[ "num" := PInt 10; "lr" := PStr "lang_ja" ]}, empty_world)
  ∧ ({[ "num" := PInt 10; "lr" := PStr "lang_ja" ]}
       : gmap string pyval) !! "start" ≠ Some PNone.
Proof.
  assert (H : search_query_parameter Omitted Omitted Omitted Omitted Omitted
                Omitted Omitted Omitted empty_world
              = (Return {[ "num" := PInt 10; "lr" := PStr "lang_ja" ]},
                 empty_world)) by reflexivity.
  split; [exact H|].
  exact (proj1 (proj2 (only_non_null_fields_are_kept Omitted Omitted
    Omitted Omitted Omitted Omitted Omitted Omitted empty_world empty_world
    {[ "num" := PInt 10; "lr" := PStr "lang_ja" ]} H)) "start").
Defined.

(** C4 with a stubbed library whose answer has no [items]. *)
Lemma missing_items_raises_KeyError_witness :
  (search stub_build (stub_execute (PDict error_payload)) "q" ∅
     sample_client).1 = Raise (KeyError "items").
Proof.
  refine (proj1 (missing_items_raises_KeyError stub_build
    (stub_execute (PDict error_payload)) "q" ∅
    {[ "q" := PStr "q"; "cx" := PStr "C" ]} error_payload sample_client
    (PStr "K") (PStr "C") () _ _ _ _ _ _)); reflexivity.
Defined.

(** C7 with a stubbed library that answers
    [{"items": [{"title": "T", "link": "L", "snippet": "S"}]}]. *)
Lemma search_returns_items_witness :
  (search stub_build (stub_execute (PDict sample_payload)) "q" ∅
     sample_client).1 = Return (PList [sample_record]).
Proof.
  refine (search_returns_items stub_build
    (stub_execute (PDict sample_payload)) "q" ∅
    {[ "q" := PStr "q"; "cx" := PStr "C" ]} sample_payload sample_client
    (PStr "K") (PStr "C") (PList [sample_record]) () _ _ _ _ _ _);
    reflexivity.
Defined.

(** C5 at ["K"] and ["C"], with both variables set in the environment. *)
Lemma explicit_credentials_take_precedence_witness :
  ∃ w', __init__ (Passed (PStr "K")) (Passed (PStr "C")) env_world
        = (Return (), w')
    ∧ self_dict w' !! "custom_search_api_key" = Some (PStr "K")
    ∧ self_dict w' !! "cse_id" = Some (PStr "C").
Proof.
  destruct (explicit_credentials_take_precedence stub_build
    (stub_execute (PDict sample_payload)) "K" "C" env_world)
    as [(w' & Hinit & Hkey & Hcx & _) _]; [discriminate..|].
  exists w'. exact (conj Hinit (conj Hkey Hcx)).
Defined.

(** C9 at the empty string. *)
Lemma falsy_credential_falls_back_witness :
  self_dict (__init__ (Passed (PStr "")) (Passed (PStr "C")) env_world).2
    !! "custom_search_api_key" = Some (PStr "EK").
Proof.
  refine (proj1 (proj1 (falsy_credential_falls_back (PStr "") env_world _)
    (Passed (PStr "C")))).
  reflexivity.
Defined.

(** The client of the examples is the one [__init__] builds. *)
Example sample_client_constructed :
  __init__ (Passed (PStr "K")) (Passed (PStr "C")) empty_world
  = (Return (), sample_client).
Proof. reflexivity. Qed.

(** The stubbed library sees the stored key and engine id. *)
Example stub_captures_request :
  calls (search stub_build (stub_execute (PDict sample_payload)) "q" ∅
           sample_client).2
  = [ EvBuild "customsearch" "v1" (PStr "K");
      EvExecute {[ "q" := PStr "q"; "cx" := PStr "C" ]} ].
Proof. reflexivity. Qed.

(** Without credentials anywhere the client is still built, and the
    refusal of the library surfaces at [search]. *)
Example absent_credentials_fail_at_search :
  ∃ w', __init__ Omitted Omitted empty_world = (Return (), w')
    ∧ (search strict_build (stub_execute (PDict sample_payload)) "q" ∅ w').1
      = Raise (LibraryError "no developerKey").
Proof. by eexists. Qed.

(** One credential passed, the other one taken from the environment. *)
Example mixed_credentials :
  self_dict (__init__ (Passed (PStr "K")) Omitted env_world).2
  = {[ "cse_id" := PStr "EC"; "custom_search_api_key" := PStr "K" ]}
  ∧ self_dict (__init__ Omitted (Passed (PStr "C")) env_world).2
    = {[ "cse_id" := PStr "C"; "custom_search_api_key" := PStr "EK" ]}.
Proof. split; reflexivity. Qed.

(** A keyword argument named [q] or [cx] never reaches the library. *)
Example repeated_keyword_is_TypeError :
  search stub_build (stub_execute (PDict sample_payload)) "q"
    {[ "cx" := PStr "other" ]} sample_client
  = (Raise (TypeError "got multiple values for keyword argument"),
     log (EvBuild "customsearch" "v1" (PStr "K")) sample_client).
Proof. reflexivity. Qed.

(** Out-of-range values at both ends, and the environment fallback. *)
Example num_101_rejected :
  search_query_parameter (Passed (Some 101)) Omitted Omitted Omitted Omitted
    Omitted Omitted Omitted empty_world
  = (Raise (ValidationError "num" "less_than_equal"), empty_world).
Proof. reflexivity. Qed.

Example environment_credentials :
  self_dict (__init__ Omitted Omitted env_world).2
  = {[ "cse_id" := PStr "EC"; "custom_search_api_key" := PStr "EK" ]}.
Proof. reflexivity. Qed.


(** * Further properties of the parameter validator *)

(** The bindings of a returned mapping, for every call that returns. *)
Lemma search_query_parameter_lookup (num : arg (option Z))
    (start lr sort dateRestrict exactTerms excludeTerms safe
      : arg (option string)) (w w' : world) (m : gmap string pyval) :
  search_query_parameter num start lr sort dateRestrict exactTerms
    excludeTerms safe w = (Return m, w') →
  ∀ k v, m !! k = Some v ↔
    (k, v) ∈ bound_parameters num start lr sort dateRestrict exactTerms
               excludeTerms safe ∧ v ≠ PNone.
Proof.
  intros Hm k v. rewrite search_query_parameter_unfold in Hm.
  destruct (validate_num _); [|done]. injection Hm as <- _.
  apply lookup_comprehension, bound_parameters_NoDup.
Qed.

(** A call that returns was given a [num] that is [None] or in range. *)
Lemma search_query_parameter_num_valid (num : arg (option Z))
    (start lr sort dateRestrict exactTerms excludeTerms safe
      : arg (option string)) (w w' : world) (m : gmap string pyval) :
  search_query_parameter num start lr sort dateRestrict exactTerms
    excludeTerms safe w = (Return m, w') →
  ∀ n, with_default (Some 10) num = Some n → 1 ≤ n ≤ 100.
Proof.
  intros Hm n Hn. rewrite search_query_parameter_unfold, Hn in Hm.
  unfold validate_num in Hm.
  destruct (Z.leb_spec 1 n); simpl in Hm; [|done].
  destruct (Z.leb_spec n 100); simpl in Hm; [lia|done].
Qed.

(** Membership in the bound parameters, key by key. *)
Lemma elem_of_bound_parameters (num : arg (option Z))
    (start lr sort dateRestrict exactTerms excludeTerms safe
      : arg (option string)) (k : string) (v : pyval) :
  (k, v) ∈ bound_parameters num start lr sort dateRestrict exactTerms
             excludeTerms safe ↔
  (k = "num" ∧ v = of_int (with_default (Some 10) num))
  ∨ (k = "start" ∧ v = of_str (with_default None start))
  ∨ (k = "lr" ∧ v = of_str (with_default (Some "lang_ja") lr))
  ∨ (k = "sort" ∧ v = of_str (with_default None sort))
  ∨ (k = "dateRestrict" ∧ v = of_str (with_default None dateRestrict))
  ∨ (k = "exactTerms" ∧ v = of_str (with_default None exactTerms))
  ∨ (k = "excludeTerms" ∧ v = of_str (with_default None excludeTerms))
  ∨ (k = "safe" ∧ v = of_str (with_default None safe)).
Proof.
  unfold bound_parameters. rewrite !elem_of_cons, elem_of_nil.
  split.
  - intros H. repeat (destruct H as [[= -> ->]|H]; [tauto|]). done.
  - intros H. repeat (destruct H as [[-> ->]|H]; [tauto|]).
    destruct H as [-> ->]. tauto.
Qed.

(** X1: the keys of a returned mapping are among the eight field names of
    the model; [q] and [cx], the keywords [search] sets itself, are never
    among them. *)
Theorem returned_keys_are_field_names (num : arg (option Z))
    (start lr sort dateRestrict exactTerms excludeTerms safe
      : arg (option string)) (w w' : world) (m : gmap string pyval) :
  search_query_parameter num start lr sort dateRestrict exactTerms
    excludeTerms safe w = (Return m, w') →
  dom m ⊆ {[ "num"; "start"; "lr"; "sort"; "dateRestrict"; "exactTerms";
             "excludeTerms"; "safe" ]}
  ∧ m !! "q" = None ∧ m !! "cx" = None.
Proof.
  intros Hm.
  assert (Hkeys : ∀ k, is_Some (m !! k) →
    k ∈ ({[ "num"; "start"; "lr"; "sort"; "dateRestrict"; "exactTerms";
            "excludeTerms"; "safe" ]} : gset string)).
  { intros k [v Hv].
    apply (search_query_parameter_lookup _ _ _ _ _ _ _ _ _ _ _ Hm) in Hv
      as [Hin _].
    apply elem_of_bound_parameters in Hin.
    rewrite !elem_of_union, !elem_of_singleton. tauto. }
  split; [|split].
  - intros k Hk. apply Hkeys. by apply elem_of_dom.
  - apply eq_None_not_Some. intros Hq. apply Hkeys in Hq.
    rewrite !elem_of_union, !elem_of_singleton in Hq. intuition discriminate.
  - apply eq_None_not_Some. intros Hq. apply Hkeys in Hq.
    rewrite !elem_of_union, !elem_of_singleton in Hq. intuition discriminate.
Qed.

(** X2: in a returned mapping [num] is bound to an integer between 1 and
    100 and every other key is bound to a string. *)
Theorem returned_values_are_typed (num : arg (option Z))
    (start lr sort dateRestrict exactTerms excludeTerms safe
      : arg (option string)) (w w' : world) (m : gmap string pyval)
    (k : string) (v : pyval) :
  search_query_parameter num start lr sort dateRestrict exactTerms
    excludeTerms safe w = (Return m, w') →
  m !! k = Some v →
  (k = "num" ∧ ∃ n, v = PInt n ∧ 1 ≤ n ≤ 100)
  ∨ (k ≠ "num" ∧ ∃ s, v = PStr s).
Proof.
  intros Hm Hv.
  apply (search_query_parameter_lookup _ _ _ _ _ _ _ _ _ _ _ Hm) in Hv
    as [Hin Hv].
  apply elem_of_bound_parameters in Hin.
  destruct Hin as [[-> ->]|Hin].
  - left. split; [done|].
    destruct (with_default (Some 10) num) as [n|] eqn:Hn; [|done].
    exists n. split; [done|].
    by apply (search_query_parameter_num_valid _ _ _ _ _ _ _ _ _ _ _ Hm).
  - right.
    repeat (destruct Hin as [[-> ->]|Hin];
      [split; [done|];
       match goal with |- ∃ s, of_str ?o = _ =>
         destruct o as [s|]; [by exists s|done] end|]).
    destruct Hin as [-> ->]. split; [done|].
    match goal with |- ∃ s, of_str ?o = _ =>
      destruct o as [s|]; [by exists s|done] end.
Qed.

(** A key of the bound parameters is in the mapping exactly when its value
    is not [None], and then with that value. *)
Lemma search_query_parameter_lookup_key (num : arg (option Z))
    (start lr sort dateRestrict exactTerms excludeTerms safe
      : arg (option string)) (w w' : world) (m : gmap string pyval)
    (k : string) (b : pyval) :
  search_query_parameter num start lr sort dateRestrict exactTerms
    excludeTerms safe w = (Return m, w') →
  (k, b) ∈ bound_parameters num start lr sort dateRestrict exactTerms
             excludeTerms safe →
  m !! k = if decide (b = PNone) then None else Some b.
Proof.
  intros Hm Hb.
  pose proof (search_query_parameter_lookup _ _ _ _ _ _ _ _ _ _ _ Hm) as Hl.
  case_decide as Hnone.
  - apply eq_None_not_Some. intros [v Hv]. apply Hl in Hv as [Hv Hne].
    pose proof (bound_parameters_NoDup num start lr sort dateRestrict
                  exactTerms excludeTerms safe) as Hnd.
    pose proof (elem_of_list_to_map_1 (M := gmap string) _ _ _ Hnd Hv) as H1.
    pose proof (elem_of_list_to_map_1 (M := gmap string) _ _ _ Hnd Hb) as H2.
    congruence.
  - by apply Hl.
Qed.

(** X3: a default is dropped only on request.  In a returned mapping the
    key [num] is missing exactly when [num=None] was passed, and the key
    [lr] is missing exactly when [lr=None] was passed; leaving the argument
    out binds the default. *)
Theorem defaults_are_dropped_only_by_None (num : arg (option Z))
    (start lr sort dateRestrict exactTerms excludeTerms safe
      : arg (option string)) (w w' : world) (m : gmap string pyval) :
  search_query_parameter num start lr sort dateRestrict exactTerms
    excludeTerms safe w = (Return m, w') →
  (m !! "num" = None ↔ num = Passed None)
  ∧ (m !! "lr" = None ↔ lr = Passed None)
  ∧ (num = Omitted → m !! "num" = Some (PInt 10))
  ∧ (lr = Omitted → m !! "lr" = Some (PStr "lang_ja")).
Proof.
  intros Hm.
  assert (Hnum : m !! "num" =
    if decide (of_int (with_default (Some 10) num) = PNone) then None
    else Some (of_int (with_default (Some 10) num))).
  { apply (search_query_parameter_lookup_key _ _ _ _ _ _ _ _ _ _ _ _ _ Hm).
    apply elem_of_bound_parameters. tauto. }
  assert (Hlr : m !! "lr" =
    if decide (of_str (with_default (Some "lang_ja") lr) = PNone) then None
    else Some (of_str (with_default (Some "lang_ja") lr))).
  { apply (search_query_parameter_lookup_key _ _ _ _ _ _ _ _ _ _ _ _ _ Hm).
    apply elem_of_bound_parameters. tauto. }
  rewrite Hnum, Hlr. clear Hnum Hlr Hm.
  destruct num as [|[n|]], lr as [|[s|]]; simpl;
    repeat split; (done || congruence).
Qed.

(** X4: the defaults declared on the parameters of the method are those
    declared on the fields of the model.  Handing the arguments to the
    model as they were given, left out ones left out, builds the same
    mapping and fails in the same cases. *)
Theorem method_and_model_defaults_agree (num : arg (option Z))
    (start lr sort dateRestrict exactTerms excludeTerms safe
      : arg (option string)) (w : world) :
  search_query_parameter num start lr sort dateRestrict exactTerms
    excludeTerms safe w =
  (p ← lift (GoogleSearchQueryParameter_new num start lr sort dateRestrict
               exactTerms excludeTerms safe);
   mret (list_to_map (filter (λ kv, kv.2 ≠ PNone) (model_dump p)))) w.
Proof.
  unfold search_query_parameter, GoogleSearchQueryParameter_new.
  destruct num as [|v]; destruct start, lr, sort, dateRestrict, exactTerms,
    excludeTerms, safe; reflexivity.
Qed.

(** X5: every model instance the constructor returns keeps the range
    invariant of [num], and validates again to itself. *)
Theorem constructed_model_is_valid (a_num : arg (option Z))
    (a_start a_lr a_sort a_dateRestrict a_exactTerms a_excludeTerms a_safe
      : arg (option string)) (p : GoogleSearchQueryParameter) :
  GoogleSearchQueryParameter_new a_num a_start a_lr a_sort a_dateRestrict
    a_exactTerms a_excludeTerms a_safe = Return p →
  (∀ n, num p = Some n → 1 ≤ n ≤ 100)
  ∧ GoogleSearchQueryParameter_new (Passed (num p)) (Passed (start p))
      (Passed (lr p)) (Passed (sort p)) (Passed (dateRestrict p))
      (Passed (exactTerms p)) (Passed (excludeTerms p)) (Passed (safe p))
    = Return p.
Proof.
  unfold GoogleSearchQueryParameter_new. intros Hp.
  assert (Hnum : validate_num (num p) = Return (num p)
                 ∧ ∀ n, num p = Some n → 1 ≤ n ≤ 100).
  { destruct a_num as [|v]; simpl in Hp.
    - injection Hp as <-. simpl. split; [done|]. intros n [= <-]. lia.
    - destruct (validate_num v) as [r|e] eqn:Hv; simpl in Hp; [|done].
      injection Hp as <-. simpl.
      pose proof (validate_num_Return _ _ Hv) as ->. split; [done|].
      intros n ->. unfold validate_num in Hv.
      destruct (Z.leb_spec 1 n); simpl in Hv; [|done].
      destruct (Z.leb_spec n 100); simpl in Hv; [lia|done]. }
  destruct Hnum as [Hv Hrange]. split; [exact Hrange|].
  rewrite Hv. by destruct p.
Qed.

(** X6: on a call whose arguments have their declared types, [num] an
    integer or [None] and each of the seven others a string or [None],
    [search_query_parameter] raises exactly when [num] is an integer below
    1 or above 100, and the failure is a [ValidationError] on [num]: no
    string, the empty one included, makes it fail.  Arguments of other
    types are outside this statement. *)
Theorem only_num_out_of_range_fails (num : arg (option Z))
    (start lr sort dateRestrict exactTerms excludeTerms safe
      : arg (option string)) (w : world) (e : exn) :
  (search_query_parameter num start lr sort dateRestrict exactTerms
     excludeTerms safe w).1 = Raise e ↔
  ∃ n, num = Passed (Some n) ∧ (n < 1 ∨ 100 < n)
       ∧ e = ValidationError "num"
               (if n <? 1 then "greater_than_equal" else "less_than_equal").
Proof.
  rewrite search_query_parameter_unfold. split.
  - destruct num as [|[n|]]; simpl; [done| |done].
    destruct (Z.leb_spec 1 n); simpl.
    + destruct (Z.leb_spec n 100); simpl; [done|].
      intros [= <-]. exists n. split; [done|]. split; [lia|].
      by destruct (Z.ltb_spec n 1); [lia|].
    + intros [= <-]. exists n. split; [done|]. split; [lia|].
      by destruct (Z.ltb_spec n 1); [|lia].
  - intros (n & -> & Hn & ->). unfold with_default.
    by rewrite (validate_num_out_of_range n Hn).
Qed.

(** * Further properties of construction *)

(** X7: a credential argument that is truthy is stored as it is, whatever
    its type, whatever the other argument is and whatever the environment
    holds: each credential is resolved on its own, and nothing is checked
    or converted. *)
Theorem truthy_credential_is_stored (v : pyval) (w : world) :
  truthy v = true →
  (∀ cse_id : arg pyval,
     self_dict (__init__ (Passed v) cse_id w).2 !! "custom_search_api_key"
     = Some v)
  ∧ (∀ api_key : arg pyval,
       self_dict (__init__ api_key (Passed v) w).2 !! "cse_id" = Some v).
Proof.
  intros Hv. split; intros other; rewrite !init_run; simpl; rewrite Hv.
  - by rewrite lookup_insert_ne, lookup_insert_eq.
  - by rewrite lookup_insert_eq.
Qed.

(** * Further properties of search *)

(** A keyword of [kwargs] named [q] or [cx] stops the call. *)
Lemma keyword_args_repeated (query : string) (cx : pyval)
    (kwargs : gmap string pyval) :
  is_Some (kwargs !! "q") ∨ is_Some (kwargs !! "cx") →
  keyword_args [("q", PStr query); ("cx", cx)] kwargs
  = Raise (TypeError "got multiple values for keyword argument").
Proof.
  intros Hrep. unfold keyword_args. rewrite decide_False; [done|].
  intros Hall. apply Forall_cons in Hall as [Hq Hall].
  apply Forall_cons in Hall as [Hcx _]. simpl in Hq, Hcx.
  destruct Hrep as [[v Hv]|[v Hv]]; congruence.
Qed.

(** A name that is not a field of the model is not a key of the mapping. *)
Lemma search_query_parameter_lookup_other (num : arg (option Z))
    (start lr sort dateRestrict exactTerms excludeTerms safe
      : arg (option string)) (w w' : world) (m : gmap string pyval)
    (k : string) :
  search_query_parameter num start lr sort dateRestrict exactTerms
    excludeTerms safe w = (Return m, w') →
  k ∉ ["num"; "start"; "lr"; "sort"; "dateRestrict"; "exactTerms";
       "excludeTerms"; "safe"] →
  m !! k = None.
Proof.
  intros Hm Hk. apply eq_None_not_Some. intros [v Hv]. apply Hk.
  apply (search_query_parameter_lookup _ _ _ _ _ _ _ _ _ _ _ Hm) in Hv
    as [Hin _].
  apply elem_of_bound_parameters in Hin.
  rewrite !elem_of_cons, elem_of_nil. tauto.
Qed.

Section search_more.
Context {service : Type}.
Variable build : string → string → pyval → result service.
Variable execute : service → gmap string pyval → result pyval.

(** X8: [search] forwards its keyword arguments as they are.  When
    [kwargs] has no key [q] or [cx] and the service is built, the one
    request carries the query as [q], the stored engine id as [cx] and every
    binding of [kwargs] unchanged, and nothing is validated on the way. *)
Theorem options_are_forwarded_unchanged (query : string)
    (kwargs : gmap string pyval) (w : world) (key cx : pyval)
    (svc : service) :
  self_dict w !! "custom_search_api_key" = Some key →
  self_dict w !! "cse_id" = Some cx →
  build "customsearch" "v1" key = Return svc →
  kwargs !! "q" = None → kwargs !! "cx" = None →
  let params := <["q" := PStr query]> (<["cx" := cx]> kwargs) in
  search build execute query kwargs w =
    (res ← execute svc params; getitem res "items",
     {| environ := environ w;
        self_dict := self_dict w;
        calls := calls w ++ [EvBuild "customsearch" "v1" key;
                             EvExecute params] |})
  ∧ params !! "q" = Some (PStr query)
  ∧ params !! "cx" = Some cx
  ∧ ∀ k, k ≠ "q" → k ≠ "cx" → params !! k = kwargs !! k.
Proof.
  intros Hkey Hcx Hbuild Hq Hc params. split; [|split; [|split]].
  - rewrite (search_run build execute query kwargs w key cx Hkey Hcx).
    rewrite Hbuild, (keyword_args_q_cx query cx kwargs Hq Hc). done.
  - apply lookup_insert_eq.
  - unfold params. by rewrite lookup_insert_ne, lookup_insert_eq.
  - intros k Hkq Hkc. unfold params. by rewrite !lookup_insert_ne.
Qed.

(** X9: what [search_query_parameter] returns is always accepted as the
    keyword arguments of [search]: the call is never stopped by a repeated
    keyword, and the request is the query, the engine id and the validated
    options. *)
Theorem validated_options_are_accepted (num : arg (option Z))
    (start lr sort dateRestrict exactTerms excludeTerms safe
      : arg (option string)) (w0 w0' : world) (m : gmap string pyval)
    (query : string) (w : world) (key cx : pyval) (svc : service) :
  search_query_parameter num start lr sort dateRestrict exactTerms
    excludeTerms safe w0 = (Return m, w0') →
  self_dict w !! "custom_search_api_key" = Some key →
  self_dict w !! "cse_id" = Some cx →
  build "customsearch" "v1" key = Return svc →
  search build execute query m w =
    (res ← execute svc (<["q" := PStr query]> (<["cx" := cx]> m));
     getitem res "items",
     {| environ := environ w;
        self_dict := self_dict w;
        calls := calls w ++
          [EvBuild "customsearch" "v1" key;
           EvExecute (<["q" := PStr query]> (<["cx" := cx]> m))] |}).
Proof.
  intros Hm Hkey Hcx Hbuild.
  assert (Hq : m !! "q" = None ∧ m !! "cx" = None).
  { split; apply (search_query_parameter_lookup_other _ _ _ _ _ _ _ _ _ _ _ _
             Hm); rewrite !elem_of_cons, elem_of_nil; intuition discriminate. }
  rewrite (search_run build execute query m w key cx Hkey Hcx).
  rewrite Hbuild, (keyword_args_q_cx query cx m (proj1 Hq) (proj2 Hq)). done.
Qed.

(** X10: a keyword argument named [q] or [cx] makes [search] raise
    [TypeError].  The service has been built by then, but no list request
    is made. *)
Theorem repeated_keyword_stops_the_request (query : string)
    (kwargs : gmap string pyval) (w : world) (key cx : pyval)
    (svc : service) :
  self_dict w !! "custom_search_api_key" = Some key →
  self_dict w !! "cse_id" = Some cx →
  build "customsearch" "v1" key = Return svc →
  is_Some (kwargs !! "q") ∨ is_Some (kwargs !! "cx") →
  search build execute query kwargs w =
    (Raise (TypeError "got multiple values for keyword argument"),
     {| environ := environ w;
        self_dict := self_dict w;
        calls := calls w ++ [EvBuild "customsearch" "v1" key] |}).
Proof.
  intros Hkey Hcx Hbuild Hrep.
  rewrite (search_run build execute query kwargs w key cx Hkey Hcx).
  by rewrite Hbuild, (keyword_args_repeated query cx kwargs Hrep).
Qed.

(** X11: when the library fails to build the service, [search] raises the
    exception of the library as it is, and no list request is made. *)
Theorem build_failure_is_propagated (query : string)
    (kwargs : gmap string pyval) (w : world) (key cx : pyval) (e : exn) :
  self_dict w !! "custom_search_api_key" = Some key →
  self_dict w !! "cse_id" = Some cx →
  build "customsearch" "v1" key = Raise e →
  search build execute query kwargs w =
    (Raise e,
     {| environ := environ w;
        self_dict := self_dict w;
        calls := calls w ++ [EvBuild "customsearch" "v1" key] |}).
Proof.
  intros Hkey Hcx Hbuild.
  rewrite (search_run build execute query kwargs w key cx Hkey Hcx).
  by rewrite Hbuild.
Qed.

(** X12: when the list request fails, [search] raises the exception of the
    library as it is, after one build and one request: nothing is caught
    and nothing is tried again. *)
Theorem request_failure_is_propagated (query : string)
    (kwargs params : gmap string pyval) (w : world) (key cx : pyval)
    (svc : service) (e : exn) :
  self_dict w !! "custom_search_api_key" = Some key →
  self_dict w !! "cse_id" = Some cx →
  build "customsearch" "v1" key = Return svc →
  keyword_args [("q", PStr query); ("cx", cx)] kwargs = Return params →
  execute svc params = Raise e →
  search build execute query kwargs w =
    (Raise e,
     {| environ := environ w;
        self_dict := self_dict w;
        calls := calls w ++ [EvBuild "customsearch" "v1" key;
                             EvExecute params] |}).
Proof.
  intros Hkey Hcx Hbuild Hargs Hexec.
  rewrite (search_run build execute query kwargs w key cx Hkey Hcx).
  rewrite Hbuild, Hargs. simpl. by rewrite Hexec.
Qed.

(** X13: when the answer of the library is not a dict ([None], a number, a
    string, a list), the subscript [res['items']] raises [TypeError], not
    [KeyError]. *)
Theorem non_dict_answer_raises_TypeError (query : string)
    (kwargs params : gmap string pyval) (w : world) (key cx res : pyval)
    (svc : service) :
  self_dict w !! "custom_search_api_key" = Some key →
  self_dict w !! "cse_id" = Some cx →
  build "customsearch" "v1" key = Return svc →
  keyword_args [("q", PStr query); ("cx", cx)] kwargs = Return params →
  execute svc params = Return res →
  (∀ d, res ≠ PDict d) →
  (search build execute query kwargs w).1 =
    Raise (TypeError "indices must be integers or object is not subscriptable").
Proof.
  intros Hkey Hcx Hbuild Hargs Hexec Hres.
  rewrite (search_run build execute query kwargs w key cx Hkey Hcx).
  rewrite Hbuild, Hargs. simpl. rewrite Hexec. simpl.
  destruct res; try done. by destruct (Hres d).
Qed.

(** X14: in every world and with every outcome, [search] leaves the
    environment and the attributes of the client as they are, keeps the
    calls already logged, and adds at most one build followed by at most
    one list request. *)
Theorem search_keeps_the_client (query : string)
    (kwargs : gmap string pyval) (w : world) :
  environ (search build execute query kwargs w).2 = environ w
  ∧ self_dict (search build execute query kwargs w).2 = self_dict w
  ∧ (calls (search build execute query kwargs w).2 = calls w
     ∨ (∃ key, calls (search build execute query kwargs w).2
               = calls w ++ [EvBuild "customsearch" "v1" key])
     ∨ (∃ key params, calls (search build execute query kwargs w).2
          = calls w ++ [EvBuild "customsearch" "v1" key; EvExecute params])).
Proof.
  unfold search, getattr, call_build, call_execute, lift, log,
    mbind, M_bind; simpl.
  destruct (self_dict w !! "custom_search_api_key") as [key|]; simpl;
    [|by auto].
  destruct (build _ _ _) as [svc|e]; simpl; [|by eauto 10].
  destruct (self_dict w !! "cse_id") as [cx|]; simpl; [|by eauto 10].
  destruct (keyword_args _ _) as [params|e]; simpl; [|by eauto 10].
  rewrite <-app_assoc.
  destruct (execute _ _) as [res|e]; simpl; eauto 10.
Qed.

End search_more.

(** * Properties of the script *)


Section script_properties.
Context {service : Type}.
Variable build : string → string → pyval → result service.
Variable execute : service → gmap string pyval → result pyval.
Variable format : pyval → string.
Variable pformat : pyval → string.

(** The loop body on a record that has the three keys. *)
Lemma print_item_record (r : gmap string pyval) (p : process) :
  is_Some (r !! "title") → is_Some (r !! "link") →
  is_Some (r !! "snippet") →
  print_item format (PDict r) p =
    (Return (), {| client := client p;
                   stdout := stdout p ++ record_lines format r |}).
Proof.
  intros [t Ht] [l Hl] [s Hs].
  unfold print_item, record_lines, liftIO, print, mbind, IO_bind; simpl.
  rewrite (lookup_total_correct _ _ _ Ht), (lookup_total_correct _ _ _ Hl),
    (lookup_total_correct _ _ _ Hs).
  rewrite Ht, Hl, Hs; simpl. by rewrite <-!app_assoc.
Qed.

(** The loop on records that all have the three keys. *)
Lemma for_each_records (rs : list (gmap string pyval)) (p : process) :
  Forall (λ r, is_Some (r !! "title") ∧ is_Some (r !! "link")
               ∧ is_Some (r !! "snippet")) rs →
  for_each (PDict <$> rs) (print_item format) p =
    (Return (), {| client := client p;
                   stdout := stdout p ++ (rs ≫= record_lines format) |}).
Proof.
  intros Hrs. revert p.
  induction Hrs as [|r rs (Ht & Hl & Hs) _ IH]; intros p.
  - simpl. rewrite app_nil_r. by destruct p.
  - rewrite fmap_cons, bind_cons. simpl. unfold mbind at 1, IO_bind.
    rewrite (print_item_record r p Ht Hl Hs), IH. simpl.
    by rewrite <-app_assoc.
Qed.

(** The script up to the loop: a fresh client is built from the
    environment, and the fixed query is searched without options. *)
Lemma main_run (p : process) :
  main build execute format pformat p =
    match search build execute "Python programming" ∅ (script_client p) with
    | (Return results, w) =>
        (items ← liftIO (iter results);
         for_each items (print_item format);;
         print (pformat results)) {| client := w; stdout := stdout p |}
    | (Raise e, w) => (Raise e, {| client := w; stdout := stdout p |})
    end.
Proof.
  unfold main, run, new_object. unfold mbind at 1 2 3, IO_bind.
  cbn -[__init__ search for_each print_item]. rewrite init_run.
  cbn -[search for_each print_item].
  by destruct (search _ _ _ _ _) as [[results|e] w].
Qed.

(** The search of the script, when the service is built. *)
Lemma script_search_run (p : process) (svc : service) :
  build "customsearch" "v1"
    (of_str (environ (client p) !! "CUSTOM_SEARCH_API_KEY")) = Return svc →
  search build execute "Python programming" ∅ (script_client p) =
    (res ← execute svc
       (<["q" := PStr "Python programming"]>
        (<["cx" := of_str (environ (client p) !! "SEARCH_ENGINE_ID")]> ∅));
     getitem res "items",
     {| environ := environ (client p);
        self_dict := self_dict (script_client p);
        calls := calls (client p) ++
          [EvBuild "customsearch" "v1"
             (of_str (environ (client p) !! "CUSTOM_SEARCH_API_KEY"));
           EvExecute
             (<["q" := PStr "Python programming"]>
              (<["cx" := of_str (environ (client p) !! "SEARCH_ENGINE_ID")]>
               ∅))] |}).
Proof.
  intros Hbuild.
  erewrite search_run;
    [|by simpl; rewrite lookup_insert_ne, lookup_insert_eq
     |by simpl; rewrite lookup_insert_eq].
  rewrite Hbuild, keyword_args_q_cx by apply lookup_empty. done.
Qed.


(** The loop never touches the client. *)
Lemma print_item_client (item : pyval) (p : process) :
  client (print_item format item p).2 = client p.
Proof.
  unfold print_item, liftIO, print, mbind, IO_bind; simpl.
  destruct (getitem item "title"); simpl; [|done].
  destruct (getitem item "link"); simpl; [|done].
  by destruct (getitem item "snippet").
Qed.

Lemma for_each_client (items : list pyval) (p : process) :
  client (for_each items (print_item format) p).2 = client p.
Proof.
  revert p. induction items as [|item items IH]; intros p; [done|].
  simpl. unfold mbind, IO_bind.
  pose proof (print_item_client item p) as Hc.
  destruct (print_item format item p) as [[[]|e] p']; simpl in *; [|done].
  by rewrite IH.
Qed.

(** X15: when the service is built and the answer binds [items] to a list
    of records that all have [title], [link] and [snippet], the script
    returns after printing four lines per record, in the order of the
    list, and then the dump of the list; the client it built holds the two
    values of the environment and has made one build and one request for
    ["Python programming"] with no option. *)
Theorem main_prints_every_record (p : process) (svc : service)
    (d : gmap string pyval) (rs : list (gmap string pyval)) :
  build "customsearch" "v1"
    (of_str (environ (client p) !! "CUSTOM_SEARCH_API_KEY")) = Return svc →
  execute svc
    (<["q" := PStr "Python programming"]>
     (<["cx" := of_str (environ (client p) !! "SEARCH_ENGINE_ID")]> ∅))
  = Return (PDict d) →
  d !! "items" = Some (PList (PDict <$> rs)) →
  Forall (λ r, is_Some (r !! "title") ∧ is_Some (r !! "link")
               ∧ is_Some (r !! "snippet")) rs →
  main build execute format pformat p =
    (Return (),
     {| client :=
          {| environ := environ (client p);
             self_dict := self_dict (script_client p);
             calls := calls (client p) ++
               [EvBuild "customsearch" "v1"
                  (of_str (environ (client p) !! "CUSTOM_SEARCH_API_KEY"));
                EvExecute
                  (<["q" := PStr "Python programming"]>
                   (<["cx" :=
                        of_str (environ (client p) !! "SEARCH_ENGINE_ID")]>
                    ∅))] |};
        stdout := stdout p ++ (rs ≫= record_lines format)
                    ++ [pformat (PList (PDict <$> rs))] |}).
Proof.
  intros Hbuild Hexec Hitems Hrs.
  rewrite main_run, (script_search_run p svc Hbuild), Hexec. simpl.
  rewrite Hitems. unfold liftIO, mbind, IO_bind. simpl.
  rewrite (for_each_records rs _ Hrs). unfold print. simpl.
  by rewrite <-app_assoc.
Qed.

(** X16: when the search of the script raises, for a failure of the library
    or for an answer without [items], the script raises the same exception
    and prints nothing. *)
Theorem main_prints_nothing_when_search_fails (p : process) (e : exn) :
  (search build execute "Python programming" ∅ (script_client p)).1
    = Raise e →
  main build execute format pformat p =
    (Raise e,
     {| client :=
          (search build execute "Python programming" ∅ (script_client p)).2;
        stdout := stdout p |}).
Proof.
  intros Hfail. rewrite main_run.
  destruct (search _ _ _ _ _) as [[results|e'] w]; simpl in *; congruence.
Qed.


(** X18: whatever the library answers, the script builds the service with
    the key of the environment and, when the service is built, makes one
    request whose only parameters are the fixed query and the engine id of
    the environment; the attributes the process had before are not used. *)
Theorem main_makes_one_request (p : process) :
  calls (client (main build execute format pformat p).2) =
    calls (client p) ++
      EvBuild "customsearch" "v1"
        (of_str (environ (client p) !! "CUSTOM_SEARCH_API_KEY")) ::
      match build "customsearch" "v1"
              (of_str (environ (client p) !! "CUSTOM_SEARCH_API_KEY")) with
      | Return _ =>
          [EvExecute
             (<["q" := PStr "Python programming"]>
              (<["cx" := of_str (environ (client p) !! "SEARCH_ENGINE_ID")]>
               ∅))]
      | Raise _ => []
      end
  ∧ self_dict (client (main build execute format pformat p).2)
    = self_dict (script_client p).
Proof.
  rewrite main_run.
  destruct (build "customsearch" "v1" _) as [svc|e] eqn:Hbuild.
  - rewrite (script_search_run p svc Hbuild).
    destruct (execute svc _) as [res|e]; simpl; [|done].
    destruct (getitem res "items") as [results|e]; simpl; [|done].
    unfold liftIO, mbind, IO_bind.
    destruct (iter results) as [items|e]; simpl; [|done].
    pose proof (for_each_client items
      {| client := {| environ := environ (client p);
                      self_dict := self_dict (script_client p);
                      calls := calls (client p) ++
                        [EvBuild "customsearch" "v1"
                           (of_str (environ (client p)
                                      !! "CUSTOM_SEARCH_API_KEY"));
                         EvExecute
                           (<["q" := PStr "Python programming"]>
                            (<["cx" := of_str (environ (client p)
                                                 !! "SEARCH_ENGINE_ID")]>
                             ∅))] |};
         stdout := stdout p |}) as Hc.
    destruct (for_each items _ _) as [[[]|e] p']; simpl in *; by rewrite Hc.
  - erewrite search_run;
      [|by simpl; rewrite lookup_insert_ne, lookup_insert_eq
       |by simpl; rewrite lookup_insert_eq].
    by rewrite Hbuild.
Qed.

End script_properties.

(** ** The further properties at concrete inputs *)

(** X1 at the call with every argument left out. *)
Lemma returned_keys_are_field_names_witness :
  ({[ "num" := PInt 10; "lr" := PStr "lang_ja" ]} : gmap string pyval)
    !! "q" = None.
Proof.
  refine (proj1 (proj2 (returned_keys_are_field_names Omitted Omitted
    Omitted Omitted Omitted Omitted Omitted Omitted empty_world empty_world
    {[ "num" := PInt 10; "lr" := PStr "lang_ja" ]} _))).
  reflexivity.
Defined.

(** X2 at the key [num] of the default mapping. *)
Lemma returned_values_are_typed_witness :
  ("num" = "num" ∧ ∃ n, PInt 10 = PInt n ∧ 1 ≤ n ≤ 100)
  ∨ ("num" ≠ "num" ∧ ∃ s, PInt 10 = PStr s).
Proof.
  refine (returned_values_are_typed Omitted Omitted Omitted Omitted Omitted
    Omitted Omitted Omitted empty_world empty_world
    {[ "num" := PInt 10; "lr" := PStr "lang_ja" ]} "num" (PInt 10) _ _);
    reflexivity.
Defined.

(** X3 at [num=None], the language left out. *)
Lemma defaults_are_dropped_only_by_None_witness :
  ({[ "lr" := PStr "lang_ja" ]} : gmap string pyval) !! "num" = None
  ↔ Passed (@None Z) = Passed None.
Proof.
  refine (proj1 (defaults_are_dropped_only_by_None (Passed None) Omitted
    Omitted Omitted Omitted Omitted Omitted Omitted empty_world empty_world
    {[ "lr" := PStr "lang_ja" ]} _)).
  reflexivity.
Defined.

(** X5 at the model built without arguments. *)
Lemma constructed_model_is_valid_witness :
  GoogleSearchQueryParameter_new (Passed (Some 10)) (Passed None)
    (Passed (Some "lang_ja")) (Passed None) (Passed None) (Passed None)
    (Passed None) (Passed None) = Return default_model.
Proof.
  refine (proj2 (constructed_model_is_valid Omitted Omitted Omitted Omitted
    Omitted Omitted Omitted Omitted default_model _)).
  reflexivity.
Defined.

(** X7 at an integer key, with both variables set in the environment. *)
Lemma truthy_credential_is_stored_witness :
  self_dict (__init__ (Passed (PInt 7)) Omitted env_world).2
    !! "custom_search_api_key" = Some (PInt 7).
Proof.
  refine (proj1 (truthy_credential_is_stored (PInt 7) env_world _) Omitted).
  reflexivity.
Defined.

(** X8 with an option that the validator would refuse. *)
Lemma options_are_forwarded_unchanged_witness :
  search stub_build (stub_execute (PDict sample_payload)) "q"
    {[ "num" := PInt 1000 ]} sample_client
  = (Return (PList [sample_record]),
     {| environ := ∅;
        self_dict := self_dict sample_client;
        calls := [EvBuild "customsearch" "v1" (PStr "K");
                  EvExecute {[ "q" := PStr "q"; "cx" := PStr "C";
                               "num" := PInt 1000 ]}] |}).
Proof.
  refine (proj1 (options_are_forwarded_unchanged stub_build
    (stub_execute (PDict sample_payload)) "q" {[ "num" := PInt 1000 ]}
    sample_client (PStr "K") (PStr "C") () _ _ _ _ _)); reflexivity.
Defined.

(** X9 with the default options. *)
Lemma validated_options_are_accepted_witness :
  calls (search stub_build (stub_execute (PDict sample_payload)) "q"
           {[ "num" := PInt 10; "lr" := PStr "lang_ja" ]} sample_client).2
  = [EvBuild "customsearch" "v1" (PStr "K");
     EvExecute {[ "q" := PStr "q"; "cx" := PStr "C"; "num" := PInt 10;
                  "lr" := PStr "lang_ja" ]}].
Proof.
  refine (f_equal (λ x, calls x.2) (validated_options_are_accepted stub_build
    (stub_execute (PDict sample_payload)) Omitted Omitted Omitted Omitted
    Omitted Omitted Omitted Omitted empty_world empty_world
    {[ "num" := PInt 10; "lr" := PStr "lang_ja" ]} "q" sample_client
    (PStr "K") (PStr "C") () _ _ _ _)); reflexivity.
Defined.

(** X10 with a second [cx]. *)
Lemma repeated_keyword_stops_the_request_witness :
  search stub_build (stub_execute (PDict sample_payload)) "q"
    {[ "cx" := PStr "other" ]} sample_client
  = (Raise (TypeError "got multiple values for keyword argument"),
     {| environ := ∅;
        self_dict := self_dict sample_client;
        calls := [EvBuild "customsearch" "v1" (PStr "K")] |}).
Proof.
  refine (repeated_keyword_stops_the_request stub_build
    (stub_execute (PDict sample_payload)) "q" {[ "cx" := PStr "other" ]}
    sample_client (PStr "K") (PStr "C") () _ _ _ _); try reflexivity.
  right. by eexists.
Defined.

(** X11 with a library that wants a key and a client that has none. *)
Lemma build_failure_is_propagated_witness :
  search strict_build (stub_execute (PDict sample_payload)) "q" ∅
    anonymous_client
  = (Raise (LibraryError "no developerKey"),
     {| environ := ∅;
        self_dict := self_dict anonymous_client;
        calls := [EvBuild "customsearch" "v1" PNone] |}).
Proof.
  refine (build_failure_is_propagated strict_build
    (stub_execute (PDict sample_payload)) "q" ∅ anonymous_client PNone PNone
    (LibraryError "no developerKey") _ _ _); reflexivity.
Defined.

(** X12 with a library that refuses the request. *)
Lemma request_failure_is_propagated_witness :
  search stub_build refusing_execute "q" ∅ sample_client
  = (Raise (LibraryError "quota exceeded"),
     {| environ := ∅;
        self_dict := self_dict sample_client;
        calls := [EvBuild "customsearch" "v1" (PStr "K");
                  EvExecute {[ "q" := PStr "q"; "cx" := PStr "C" ]}] |}).
Proof.
  refine (request_failure_is_propagated stub_build refusing_execute "q" ∅
    {[ "q" := PStr "q"; "cx" := PStr "C" ]} sample_client (PStr "K")
    (PStr "C") () (LibraryError "quota exceeded") _ _ _ _ _); reflexivity.
Defined.

(** X13 with a library that answers a list. *)
Lemma non_dict_answer_raises_TypeError_witness :
  (search stub_build (stub_execute (PList [])) "q" ∅ sample_client).1
  = Raise (TypeError "indices must be integers or object is not subscriptable").
Proof.
  refine (non_dict_answer_raises_TypeError stub_build
    (stub_execute (PList [])) "q" ∅ {[ "q" := PStr "q"; "cx" := PStr "C" ]}
    sample_client (PStr "K") (PStr "C") (PList []) () _ _ _ _ _ _);
    try reflexivity.
  intros d. discriminate.
Defined.

(** X15 with the one-record answer. *)
Lemma main_prints_every_record_witness :
  stdout (main stub_build (stub_execute (PDict sample_payload))
            sample_format sample_pformat env_process).2
  = ["Title: T"; "Link: L"; "Snippet: S"; "---"; "<dump>"].
Proof.
  refine (f_equal (λ x, stdout x.2) (main_prints_every_record stub_build
    (stub_execute (PDict sample_payload)) sample_format sample_pformat
    env_process () sample_payload
    [ {[ "title" := PStr "T"; "link" := PStr "L"; "snippet" := PStr "S" ]} ]
    _ _ _ _)); try reflexivity.
  repeat constructor; by eexists.
Defined.

(** X16 with an answer that has no [items]. *)
Lemma main_prints_nothing_when_search_fails_witness :
  (main stub_build (stub_execute (PDict error_payload)) sample_format
     sample_pformat env_process).1 = Raise (KeyError "items")
  ∧ stdout (main stub_build (stub_execute (PDict error_payload))
              sample_format sample_pformat env_process).2 = [].
Proof.
  pose proof (main_prints_nothing_when_search_fails stub_build
    (stub_execute (PDict error_payload)) sample_format sample_pformat
    env_process (KeyError "items") eq_refl) as H.
  split; [exact (f_equal fst H)|exact (f_equal (λ x, stdout x.2) H)].
Defined.

